(** * Car-Price-Prediction: the dashboard and the analytics page

    A shallow embedding of [src/components/dashboard.tsx] and
    [src/app/model/page.tsx].  Each React component is a record of its
    [useState] cells, its handlers are functions on that record, and its
    JSX is a function from the record to a small view tree.

    An [async] handler runs in two pieces: the statements before its
    first [await] run with the event, the rest runs when the awaited
    promise settles.  Both pieces are separate functions here, so other
    events may come in between, as in the browser.

    Conventions.
    - A JavaScript string is the byte sequence of its UTF-8 encoding
      ([string]); ill-formed UTF-16 has no counterpart.
    - A JavaScript number is an IEEE 754 binary64 value ([float]).
    - The TypeScript interfaces are taken as the shape of the JSON the
      backend sends. *)

From Stdlib Require Import ZArith NArith Ascii String DecimalString DecimalPos.
From Stdlib Require Import Floats.PrimFloat Floats.SpecFloat Floats.FloatOps.
From stdpp Require Import base list strings.

Local Open Scope string_scope.

(** ** The JavaScript built-ins the two components call *)

Module JS.

Definition number : Type := float.

Definition NaN : number := nan.

(** The Number value of a mathematical integer: round to nearest, ties
    to even; an integer beyond the binary64 range gives an infinity. *)
Definition ofZ (z : Z) : number :=
  SF2Prim (binary_normalize prec emax z 0 false).

(** ToBoolean on a number: [+0], [-0] and [NaN] are falsy. *)
Definition truthy (x : number) : bool :=
  negb (PrimFloat.is_zero x || PrimFloat.is_nan x).

(** ToBoolean on a string: only the empty string is falsy. *)
Definition truthy_string (s : string) : bool :=
  match s with
  | EmptyString => false
  | String _ _ => true
  end.

(** [a || b] on strings where [a] may be [undefined]. *)
Definition or_else (a : option string) (b : string) : string :=
  match a with
  | Some s => if truthy_string s then s else b
  | None => b
  end.

Definition code (c : ascii) : N := N_of_ascii c.

Definition between (lo hi : N) (c : ascii) : bool :=
  ((lo <=? code c) && (code c <=? hi))%N.

(** The class [0-9]. *)
Definition is_digit (c : ascii) : bool := between 48 57 c.

Fixpoint filter_string (p : ascii -> bool) (s : string) : string :=
  match s with
  | EmptyString => EmptyString
  | String c s' =>
      if p c then String c (filter_string p s') else filter_string p s'
  end.

Fixpoint all_chars (p : ascii -> bool) (s : string) : bool :=
  match s with
  | EmptyString => true
  | String c s' => p c && all_chars p s'
  end.

(** [value.replace(/[^0-9]/g, '')]: every character outside [0-9] is
    dropped, the others stay in order. *)
Definition strip_non_digits (value : string) : string :=
  filter_string is_digit value.

(** *** [parseInt(string)] with no radix (ECMA-262, 19.2.5) *)

(** One-byte white space and line terminators: TAB, LF, VT, FF, CR, SP. *)
Definition is_space1 (c : ascii) : bool :=
  between 9 13 c || (code c =? 32)%N.

(** U+00A0. *)
Definition is_space2 (c1 c2 : ascii) : bool :=
  ((code c1 =? 194) && (code c2 =? 160))%N.

(** U+1680, U+2000..U+200A, U+2028, U+2029, U+202F, U+205F, U+3000,
    U+FEFF. *)
Definition is_space3 (c1 c2 c3 : ascii) : bool :=
  let a := code c1 in
  let b := code c2 in
  let c := code c3 in
  (((a =? 225) && (b =? 154) && (c =? 128))
   || ((a =? 226) && (b =? 128)
       && (((128 <=? c) && (c <=? 138)) || (c =? 168) || (c =? 169) || (c =? 175)))
   || ((a =? 226) && (b =? 129) && (c =? 159))
   || ((a =? 227) && (b =? 128) && (c =? 128))
   || ((a =? 239) && (b =? 187) && (c =? 191)))%N.

Fixpoint trimStart (s : string) : string :=
  match s with
  | EmptyString => s
  | String c1 s1 =>
      if is_space1 c1 then trimStart s1
      else
        match s1 with
        | EmptyString => s
        | String c2 s2 =>
            if is_space2 c1 c2 then trimStart s2
            else
              match s2 with
              | EmptyString => s
              | String c3 s3 =>
                  if is_space3 c1 c2 c3 then trimStart s3 else s
              end
        end
  end.

(** The value of [c] as a digit of radix [R] (10 or 16 here). *)
Definition digit_value (R : Z) (c : ascii) : option Z :=
  let n := Z.of_N (code c) in
  if is_digit c then Some (n - 48)%Z
  else if (R =? 16)%Z && between 97 102 c then Some (n - 87)%Z
  else if (R =? 16)%Z && between 65 70 c then Some (n - 55)%Z
  else None.

(** The longest prefix of radix-[R] digits, as an integer; [acc] is the
    value read so far, [None] while no digit was read. *)
Fixpoint parse_digits (R : Z) (s : string) (acc : option Z) : option Z :=
  match s with
  | EmptyString => acc
  | String c s' =>
      match digit_value R c with
      | Some d => parse_digits R s' (Some (R * default 0%Z acc + d)%Z)
      | None => acc
      end
  end.

Definition strip_sign (s : string) : bool * string :=
  match s with
  | String "-" s' => (true, s')
  | String "+" s' => (false, s')
  | _ => (false, s)
  end.

Definition strip_hex_prefix (s : string) : Z * string :=
  match s with
  | String "0" (String "x" s') => (16%Z, s')
  | String "0" (String "X" s') => (16%Z, s')
  | _ => (10%Z, s)
  end.

Definition parseInt (s : string) : number :=
  let '(negative, s1) := strip_sign (trimStart s) in
  let '(R, s2) := strip_hex_prefix s1 in
  match parse_digits R s2 None with
  | None => NaN
  | Some mathInt =>
      if negative then PrimFloat.opp (ofZ mathInt) else ofZ mathInt
  end.

(** [String(n)] for an integer [n]. *)
Definition String_of_Z (z : Z) : string :=
  NilZero.string_of_int (Z.to_int z).

(** *** [encodeURIComponent] (ECMA-262, 19.2.6.4) on the UTF-8 bytes *)

Definition is_alpha (c : ascii) : bool :=
  between 65 90 c || between 97 122 c.

(** uriUnescaped: alphanumerics and [- _ . ! ~ * ' ( )]. *)
Definition uri_unescaped (c : ascii) : bool :=
  is_alpha c || is_digit c
  || existsb (fun m => (code c =? code m)%N)
       ["-"; "_"; "."; "!"; "~"; "*"; "'"; "("; ")"]%char.

Definition hex_digit (n : N) : ascii :=
  if (n <? 10)%N then ascii_of_N (48 + n) else ascii_of_N (55 + n).

Definition percent_encode (c : ascii) : string :=
  String "%" (String (hex_digit (code c / 16))
                (String (hex_digit (code c mod 16)) EmptyString)).

Fixpoint encodeURIComponent (s : string) : string :=
  match s with
  | EmptyString => EmptyString
  | String c s' =>
      (if uri_unescaped c then String c EmptyString else percent_encode c)
      +:+ encodeURIComponent s'
  end.

(** The value of a hexadecimal digit as [percent_encode] writes it. *)
Definition hex_value (c : ascii) : N :=
  if is_digit c then (code c - 48)%N else (code c - 55)%N.



(** *** [Array.prototype.slice(start)] (ECMA-262, 23.1.3.28) *)

Definition slice {A} (start : Z) (l : list A) : list A :=
  let len := Z.of_nat (List.length l) in
  let k := if (start <? 0)%Z then Z.max (len + start) 0 else Z.min start len in
  drop (Z.to_nat k) l.

(** *** JSON text, as the tree it denotes *)

(** The values an object member takes in the one request body the
    dashboard writes. *)
Inductive json : Type :=
| JNull
| JNumber (n : number)
| JString (s : string).

(** An object: its members in the order they are written. *)
Definition json_object : Type := list (string * json).

(** How [JSON.stringify] writes a number: [NaN] and the infinities
    become [null], and [-0] is written [0]. *)
Definition stringify_number (n : number) : json :=
  if PrimFloat.is_finite n
  then JNumber (if PrimFloat.is_zero n then PrimFloat.zero else n)
  else JNull.



End JS.

Import JS.

(** ** Requests and how they end *)

(** A call of [fetch]: the URL and, for a request with options, the
    method, the headers and the JSON body. *)
Record Request : Type := mkRequest {
  url : string;
  method : string;
  headers : list (string * string);
  body : option json_object
}.

Definition GET (u : string) : Request :=
  {| url := u; method := "GET"; headers := []; body := None |}.

(** How [await fetch(...)] followed by [await response.json()] ends:
    [fetch] rejects, [json()] rejects, or the parsed data arrives.  The
    first two land in the [catch] block. *)
Inductive fetched (A : Type) : Type :=
| NetworkError
| ParseError
| Json (data : A).

Arguments NetworkError {A}.
Arguments ParseError {A}.
Arguments Json {A} data.

(** The request ended in the [catch] block. *)
Definition rejected {A} (r : fetched A) : bool :=
  match r with
  | NetworkError | ParseError => true
  | Json _ => false
  end.

(** ** What JSX puts on the page *)

(** A piece of text: a literal, or a number formatted by the host's
    [toLocaleString] or [toFixed], which stay symbolic. *)
Inductive part : Type :=
| Lit (s : string)
| Locale (n : number)
| Fixed (n : number) (digits : nat).

Definition text : Type := list part.

(** The value of a JSX child [{guard && <element/>}]: the guard itself
    when it is falsy, the element otherwise. *)
Inductive child (A : Type) : Type :=
| NullChild
| FalseChild
| NumberChild (n : number)
| StringChild (s : string)
| Element (a : A).

Arguments NullChild {A}.
Arguments FalseChild {A}.
Arguments NumberChild {A} n.
Arguments StringChild {A} s.
Arguments Element {A} a.

(** [guard && x] for a guard of type [string | null]. *)
Definition and_string {A} (guard : option string) (x : string -> A) : child A :=
  match guard with
  | None => NullChild
  | Some s => if truthy_string s then Element (x s) else StringChild s
  end.

(** [guard && x] for a guard of type [number | null]. *)
Definition and_number {A} (guard : option number) (x : number -> A) : child A :=
  match guard with
  | None => NullChild
  | Some n => if truthy n then Element (x n) else NumberChild n
  end.

(** [guard && x] for a boolean guard. *)
Definition and_bool {A} (guard : bool) (x : A) : child A :=
  if guard then Element x else FalseChild.

(** React puts nothing on the page for [null] and [false]; a number or
    a non-empty string becomes a text node, an element is rendered. *)
Definition renders_nothing {A} (c : child A) : bool :=
  match c with
  | NullChild | FalseChild => true
  | StringChild s => negb (truthy_string s)
  | NumberChild _ => false
  | Element _ => false
  end.

Definition element_of {A} (c : child A) : option A :=
  match c with
  | Element a => Some a
  | _ => None
  end.

Record Alert : Type := mkAlert {
  variant : string;
  description : string
}.

(** ** [src/components/dashboard.tsx] *)

Module Dashboard.

Module FormData.
Record t : Type := mk {
  name : string;
  year : string;
  miles : string
}.
End FormData.

Module PredictionData.
Record t : Type := mk {
  name : string;
  year : number;
  miles : number;
  price : number
}.
End PredictionData.

Module PredictionResponse.
Record t : Type := mk {
  predicted_price : number;
  success : bool;
  error : option string
}.
End PredictionResponse.

Module CarsResponse.
Record t : Type := mk {
  cars : list string;
  total : number
}.
End CarsResponse.

(** The eight [useState] cells of [PricePredictionDashboard]. *)
Record State : Type := mkState {
  formData : FormData.t;
  availableCars : list string;
  searchTerm : string;
  isSearching : bool;
  prediction : option number;
  loading : bool;
  error : option string;
  predictions : list PredictionData.t
}.

Definition setFormData (f : FormData.t -> FormData.t) (st : State) : State :=
  mkState (f (formData st)) (availableCars st) (searchTerm st) (isSearching st)
    (prediction st) (loading st) (error st) (predictions st).

Definition setAvailableCars (v : list string) (st : State) : State :=
  mkState (formData st) v (searchTerm st) (isSearching st)
    (prediction st) (loading st) (error st) (predictions st).

Definition setSearchTerm (v : string) (st : State) : State :=
  mkState (formData st) (availableCars st) v (isSearching st)
    (prediction st) (loading st) (error st) (predictions st).

Definition setIsSearching (v : bool) (st : State) : State :=
  mkState (formData st) (availableCars st) (searchTerm st) v
    (prediction st) (loading st) (error st) (predictions st).

Definition setPrediction (v : option number) (st : State) : State :=
  mkState (formData st) (availableCars st) (searchTerm st) (isSearching st)
    v (loading st) (error st) (predictions st).

Definition setLoading (v : bool) (st : State) : State :=
  mkState (formData st) (availableCars st) (searchTerm st) (isSearching st)
    (prediction st) v (error st) (predictions st).

Definition setError (v : option string) (st : State) : State :=
  mkState (formData st) (availableCars st) (searchTerm st) (isSearching st)
    (prediction st) (loading st) v (predictions st).

Definition setPredictions
    (f : list PredictionData.t -> list PredictionData.t) (st : State) : State :=
  mkState (formData st) (availableCars st) (searchTerm st) (isSearching st)
    (prediction st) (loading st) (error st) (f (predictions st)).

(** The state of the first render; [fullYear] is
    [new Date().getFullYear()]. *)
Definition initial (fullYear : Z) : State :=
  {| formData := FormData.mk "" (String_of_Z fullYear) "0";
     availableCars := [];
     searchTerm := "";
     isSearching := false;
     prediction := None;
     loading := false;
     error := None;
     predictions := [] |}.

(** *** The car search *)

Definition origin : string := "http://localhost:5000".

(** The template literal passed to [fetch] in [fetchCars]. *)
Definition fetchCars_url (term : string) : string :=
  origin +:+ "/cars"
  +:+ (if truthy_string term
       then "?search=" +:+ encodeURIComponent term
       else "").

(** [fetchCars] up to its first [await].  The timer that calls it is
    cleared whenever [searchTerm] changes, so the term the closure holds
    is the one in the state when the timer fires. *)
Definition fetchCars_start (st : State) : State * Request :=
  (setIsSearching true st, GET (fetchCars_url (searchTerm st))).

(** [fetchCars] from the point where the response is in. *)
Definition fetchCars_resume (r : fetched CarsResponse.t) (st : State) : State :=
  setIsSearching false
    match r with
    | Json data => setError None (setAvailableCars (CarsResponse.cars data) st)
    | NetworkError | ParseError =>
        setAvailableCars [] (setError (Some "Failed to load car models") st)
    end.

(** *** The prediction form *)

(** [{ ...prev, [key]: value }].  A key outside the interface adds a
    property that nothing reads; the three fields keep their values. *)
Definition assign (key value : string) (prev : FormData.t) : FormData.t :=
  if String.eqb key "name"
  then FormData.mk value (FormData.year prev) (FormData.miles prev)
  else if String.eqb key "year"
  then FormData.mk (FormData.name prev) value (FormData.miles prev)
  else if String.eqb key "miles"
  then FormData.mk (FormData.name prev) (FormData.year prev) value
  else prev.

(** [onChange] of the search box. *)
Definition onSearchChange (value : string) (st : State) : State :=
  setSearchTerm value st.

(** [onChange] of the car model [select]. *)
Definition onNameChange (value : string) (st : State) : State :=
  setFormData
    (fun prev => FormData.mk value (FormData.year prev) (FormData.miles prev)) st.

Definition handleInputChange (name value : string) (st : State) : State :=
  if String.eqb name "year" || String.eqb name "miles"
  then setFormData (assign name (strip_non_digits value)) st
  else setFormData (assign name value) st.

(** The second argument of [fetch] in [handleSubmit], with the body as
    [JSON.stringify] writes it. *)
Definition predict_request (fd : FormData.t) : Request :=
  {| url := origin +:+ "/predict";
     method := "POST";
     headers := [("Content-Type", "application/json")];
     body := Some [("name", JString (FormData.name fd));
                   ("year", stringify_number (parseInt (FormData.year fd)));
                   ("miles", stringify_number (parseInt (FormData.miles fd)))] |}.

(** The entry [handleSubmit] appends to the history. *)
Definition history_entry (fd : FormData.t) (data : PredictionResponse.t)
    : PredictionData.t :=
  {| PredictionData.name := FormData.name fd;
     PredictionData.miles := parseInt (FormData.miles fd);
     PredictionData.year := parseInt (FormData.year fd);
     PredictionData.price := PredictionResponse.predicted_price data |}.

(** [handleSubmit] up to its first [await]. *)
Definition handleSubmit_start (st : State) : State * Request :=
  (setError None (setLoading true st), predict_request (formData st)).

(** [handleSubmit] from the point where the response is in; [fd] is the
    [formData] its closure holds, the one of the render that was
    submitted. *)
Definition handleSubmit_resume
    (fd : FormData.t) (r : fetched PredictionResponse.t) (st : State) : State :=
  setLoading false
    match r with
    | Json data =>
        if PredictionResponse.success data
        then
          setPredictions
            (fun prev => slice (-5) (prev ++ [history_entry fd data]))
            (setPrediction (Some (PredictionResponse.predicted_price data)) st)
        else
          setError
            (Some (or_else (PredictionResponse.error data) "Prediction failed")) st
    | NetworkError | ParseError =>
        setError (Some "Failed to connect to prediction service") st
    end.

(** The outcomes of [/predict] that do not reach the [success] branch:
    a rejection, or a body whose [success] is false. *)
Definition failed (r : fetched PredictionResponse.t) : bool :=
  match r with
  | NetworkError | ParseError => true
  | Json data => negb (PredictionResponse.success data)
  end.

(** What [handleSubmit] hands to [setError] for such an outcome. *)
Definition failure_message (r : fetched PredictionResponse.t) : string :=
  match r with
  | NetworkError | ParseError => "Failed to connect to prediction service"
  | Json data => or_else (PredictionResponse.error data) "Prediction failed"
  end.

(** A whole run of [handleSubmit] with nothing in between. *)
Definition handleSubmit (r : fetched PredictionResponse.t) (st : State) : State :=
  handleSubmit_resume (formData st) r (fst (handleSubmit_start st)).

(** *** The JSX *)

(** The block under "Prediction Results". *)
Record Results : Type := mkResults {
  priceLine : text;
  carName : string;
  carYear : string;
  milesLine : text
}.

Record View : Type := mkView {
  carSearchValue : string;
  nameValue : string;
  options : list string;
  searching : child string;
  yearValue : string;
  milesValue : string;
  submitDisabled : bool;
  submitLabel : string;
  errorAlert : child Alert;
  results : child Results;
  history : child (list PredictionData.t)
}.

Definition render (st : State) : View :=
  {| carSearchValue := searchTerm st;
     nameValue := FormData.name (formData st);
     options := "" :: availableCars st;
     searching := and_bool (isSearching st) "Loading...";
     yearValue := FormData.year (formData st);
     milesValue := FormData.miles (formData st);
     submitDisabled := loading st;
     submitLabel := if loading st then "Predicting..." else "Predict Price";
     errorAlert := and_string (error st) (mkAlert "destructive");
     results :=
       and_number (prediction st)
         (fun p =>
            {| priceLine := [Lit "Predicted Price: $"; Locale p];
               carName := FormData.name (formData st);
               carYear := FormData.year (formData st);
               milesLine :=
                 [Locale (parseInt (FormData.miles (formData st))); Lit " miles"] |});
     history := and_bool (Nat.ltb 0 (List.length (predictions st))) (predictions st) |}.

(** The price line on the page, when there is one. *)
Definition displayed_price (v : View) : option text :=
  priceLine <$> element_of (results v).

(** The text of the error banner, when there is one. *)
Definition banner (v : View) : option string :=
  description <$> element_of (errorAlert v).

(** *** Runs of the component *)

(** What can happen to the mounted component.  [PredictSettled fd r]
    resumes a [handleSubmit] whose closure holds [fd]. *)
Inductive event : Type :=
| SearchChange (value : string)
| NameChange (value : string)
| InputChange (name value : string)
| SearchTimer
| CarsSettled (r : fetched CarsResponse.t)
| Submit
| PredictSettled (fd : FormData.t) (r : fetched PredictionResponse.t).

Definition step (ev : event) (st : State) : State :=
  match ev with
  | SearchChange value => onSearchChange value st
  | NameChange value => onNameChange value st
  | InputChange name value => handleInputChange name value st
  | SearchTimer => fst (fetchCars_start st)
  | CarsSettled r => fetchCars_resume r st
  | Submit => fst (handleSubmit_start st)
  | PredictSettled fd r => handleSubmit_resume fd r st
  end.

Definition run (evs : list event) (st : State) : State :=
  foldl (fun st ev => step ev st) st evs.

(** The entry an event adds to the history: only a [/predict] response
    with [success] true adds one. *)
Definition new_entry (ev : event) : option PredictionData.t :=
  match ev with
  | PredictSettled fd (Json data) =>
      if PredictionResponse.success data
      then Some (history_entry fd data)
      else None
  | _ => None
  end.

(** The entries of a run, in the order the responses came in. *)
Definition entries (evs : list event) : list PredictionData.t :=
  omap new_entry evs.

(** The events by which the user edits the form. *)
Definition edits_form (ev : event) : bool :=
  match ev with
  | NameChange _ | InputChange _ _ => true
  | _ => false
  end.

(** The price on show is the price of the newest history entry. *)
Definition price_matches_history (st : State) : Prop :=
  prediction st = PredictionData.price <$> last (predictions st).

(** The error cell is empty or holds a non-empty text. *)
Definition error_shown (st : State) : Prop :=
  match error st with
  | None => errorAlert (render st) = NullChild
  | Some msg =>
      msg ≠ "" ∧ errorAlert (render st) = Element (mkAlert "destructive" msg)
  end.

(** The year and miles strings of the form are made of digits. *)
Definition form_digits (st : State) : Prop :=
  all_chars is_digit (FormData.year (formData st)) = true
  ∧ all_chars is_digit (FormData.miles (formData st)) = true.

End Dashboard.

(** ** [src/app/model/page.tsx] *)

Module ModelAnalytics.

Module Metrics.
Record t : Type := mk {
  mse : number;
  rmse : number;
  mae : number;
  r2 : number
}.
End Metrics.

Module Distribution.
Record t : Type := mk {
  labels : list string;
  values : list number
}.
End Distribution.

(** [Record<string, number>] is kept as the entries in the order
    [Object.entries] lists them. *)
Record ModelStats : Type := mkModelStats {
  metrics : Metrics.t;
  price_distribution : Distribution.t;
  accuracy_by_range : list (string * number);
  year_performance : list (string * number);
  sample_size : number;
  timestamp : string
}.

Record ScatterData : Type := mkScatterData {
  actual : list number;
  predicted : list number;
  years : list number;
  miles : list number
}.

Record State : Type := mkState {
  stats : option ModelStats;
  scatterData : option ScatterData;
  loading : bool;
  error : option string
}.

Definition initial : State :=
  {| stats := None; scatterData := None; loading := true; error := None |}.

(** [fetchData]: both requests go out together; the [try] block fails
    when either [fetch] rejects or either body does not parse.  A body
    that parses to [null] is [None]. *)
Definition fetchData
    (statsR : fetched (option ModelStats))
    (scatterR : fetched (option ScatterData)) (st : State) : State :=
  match statsR, scatterR with
  | Json statsData, Json scatter =>
      {| stats := statsData; scatterData := scatter;
         loading := false; error := None |}
  | _, _ =>
      {| stats := stats st; scatterData := scatterData st;
         loading := false;
         error := Some "Failed to load model analytics data" |}
  end.

Definition requests : list Request :=
  [GET "http://localhost:5000/model-stats";
   GET "http://localhost:5000/prediction-scatter"].

(** A point of the scatter chart; [predicted[idx]] past the end of the
    array is [undefined], here [None]. *)
Record Point : Type := mkPoint {
  point_actual : number;
  point_predicted : option number
}.

Definition scatterPoints (d : ScatterData) : list Point :=
  imap (fun idx val => mkPoint val (predicted d !! idx)) (actual d).

Record Bar : Type := mkBar {
  range : string;
  count : option number
}.

Definition priceDistData (s : ModelStats) : list Bar :=
  imap (fun idx label => mkBar label (Distribution.values (price_distribution s) !! idx))
    (Distribution.labels (price_distribution s)).


Definition accuracyData (s : ModelStats) : list (string * number) :=
  (fun e => (e.1, PrimFloat.mul e.2 (ofZ 100))) <$> accuracy_by_range s.

Record Charts : Type := mkCharts {
  r2Score : text;
  rmseText : text;
  maeText : text;
  sampleSize : text;
  scatter : list Point;
  priceBars : list Bar;
  accuracyBars : list (string * number)
}.

Inductive Page : Type :=
| LoadingPage
| ErrorPage (alert : Alert)
| NoDataPage
| ContentPage (charts : Charts).

(** What is returned once [loading], [error], [stats] and
    [scatterData] have been checked. *)
Definition content (s : ModelStats) (d : ScatterData) : Charts :=
  {| r2Score := [Fixed (Metrics.r2 (metrics s)) 4];
     rmseText := [Lit "$"; Fixed (Metrics.rmse (metrics s)) 2];
     maeText := [Lit "$"; Fixed (Metrics.mae (metrics s)) 2];
     sampleSize := [Locale (sample_size s)];
     scatter := scatterPoints d;
     priceBars := priceDistData s;
     accuracyBars := accuracyData s |}.

Definition render_data (st : State) : Page :=
  match stats st, scatterData st with
  | Some s, Some d => ContentPage (content s d)
  | _, _ => NoDataPage
  end.

Definition render (st : State) : Page :=
  if loading st then LoadingPage
  else
    match error st with
    | Some e =>
        if truthy_string e then ErrorPage (mkAlert "destructive" e)
        else render_data st
    | None => render_data st
    end.

(** The text of the error banner, when the page is one. *)
Definition banner (p : Page) : option string :=
  match p with
  | ErrorPage a => Some (description a)
  | _ => None
  end.

End ModelAnalytics.

(** ** Sample data for concrete runs *)

Module Samples.

Definition form : Dashboard.FormData.t :=
  Dashboard.FormData.mk "Ford F-150" "2019" "42000".

Definition answer (p : number) : fetched Dashboard.PredictionResponse.t :=
  Json (Dashboard.PredictionResponse.mk p true None).

Definition refusal (e : string) : fetched Dashboard.PredictionResponse.t :=
  Json (Dashboard.PredictionResponse.mk 0%float false (Some e)).


Definition scatter : ModelAnalytics.ScatterData :=
  ModelAnalytics.mkScatterData
    [12000%float; 8500%float; 30250%float]
    [11800%float; 9100%float]
    [2015%float; 2011%float; 2020%float]
    [60000%float; 98000%float; 12000%float].


Definition stats : ModelAnalytics.ModelStats :=
  ModelAnalytics.mkModelStats
    (ModelAnalytics.Metrics.mk 1210000%float 1100%float 800%float 0.875%float)
    (ModelAnalytics.Distribution.mk ["0-10k"; "10k-20k"] [40%float; 25%float])
    [("0-10k", 0.75%float); ("10k-20k", 0.875%float)]
    [("2015", 1200.5%float); ("2020", 950%float)]
    65%float
    "2024-05-01T10:00:00".

End Samples.

(** * Properties *)

(** ** The built-ins *)

Section Builtins.

Lemma slice_last (n : nat) {A} (l : list A) :
  0 < n → slice (- Z.of_nat n) l = drop (length l - n) l.
Proof.
  intros Hn. unfold slice.
  destruct (Z.ltb_spec (- Z.of_nat n) 0); f_equal; lia.
Qed.


Lemma slice_last_snoc (n : nat) {A} (l : list A) (x : A) :
  0 < n → last (slice (- Z.of_nat n) (l ++ [x])) = Some x.
Proof.
  intros Hn.
  rewrite slice_last, last_lookup, length_drop, lookup_drop, length_app by done.
  cbn [length].
  replace (_ + _) with (length l) by lia.
  by rewrite list_lookup_middle.
Qed.

Lemma and_string_truthy {A} (s : string) (x : string → A) :
  truthy_string s = true → and_string (Some s) x = Element (x s).
Proof. intros Hs. cbn. by rewrite Hs. Qed.

Lemma all_chars_filter (p : ascii → bool) (s : string) :
  all_chars p (filter_string p s) = true.
Proof.
  induction s as [|c s IH]; [done|].
  cbn. destruct (p c) eqn:Hc; [|done].
  cbn. by rewrite Hc.
Qed.

Lemma filter_string_id (p : ascii → bool) (s : string) :
  filter_string p s = s ↔ all_chars p s = true.
Proof.
  split.
  - intros <-. apply all_chars_filter.
  - induction s as [|c s IH]; [done|].
    cbn. destruct (p c); [|done].
    intros Hs. by rewrite IH.
Qed.

Lemma string_of_uint_digits (d : Decimal.uint) :
  all_chars is_digit (NilEmpty.string_of_uint d) = true.
Proof. induction d as [|d IH|d IH|d IH|d IH|d IH|d IH|d IH|d IH|d IH|d IH]; done. Qed.

Lemma String_of_Z_digits (z : Z) :
  (0 ≤ z)%Z → all_chars is_digit (String_of_Z z) = true.
Proof.
  intros Hz. unfold String_of_Z. destruct z as [|p|p]; [done| |lia].
  cbn. unfold NilZero.string_of_uint.
  pose proof (string_of_uint_digits (Pos.to_uint p)) as Hd.
  by destruct (Pos.to_uint p).
Qed.

End Builtins.

(** ** [parseInt] on what the form holds *)

Section ParseInt.

Lemma digit_first (c : ascii) :
  is_digit c = true →
  is_space1 c = false
  ∧ (∀ c2, is_space2 c c2 = false)
  ∧ (∀ c2 c3, is_space3 c c2 c3 = false)
  ∧ (∀ s, strip_sign (String c s) = (false, String c s))
  ∧ c ≠ "x"%char ∧ c ≠ "X"%char.
Proof.
  destruct c as [[] [] [] [] [] [] [] []]; intros Hc; try discriminate Hc;
    split_and!; try done.
Qed.

Lemma trimStart_digits (s : string) :
  all_chars is_digit s = true → trimStart s = s.
Proof.
  destruct s as [|c1 s1]; [done|]. cbn [all_chars].
  intros [Hc _]%andb_prop.
  destruct (digit_first c1 Hc) as (H1 & H2 & H3 & _).
  cbn [trimStart]. rewrite H1.
  destruct s1 as [|c2 s2]; [done|]. rewrite H2.
  destruct s2 as [|c3 s3]; [done|]. by rewrite H3.
Qed.

Lemma strip_hex_prefix_digits (s : string) :
  all_chars is_digit s = true → strip_hex_prefix s = (10%Z, s).
Proof.
  destruct s as [|c1 [|c2 s2]].
  - done.
  - intros _. by destruct c1 as [[] [] [] [] [] [] [] []].
  - cbn [all_chars]. intros [_ [Hc _]%andb_prop]%andb_prop.
    destruct (digit_first c2 Hc) as (_ & _ & _ & _ & Hx & HX).
    unfold strip_hex_prefix.
    destruct (ascii_dec c2 "x") as [->|?]; [done|].
    destruct (ascii_dec c2 "X") as [->|?]; [done|].
    destruct c1 as [[] [] [] [] [] [] [] []]; try done.
    destruct c2 as [[] [] [] [] [] [] [] []]; done.
Qed.

Lemma parseInt_digits (s : string) :
  all_chars is_digit s = true →
  parseInt s = match parse_digits 10 s None with
               | Some mathInt => ofZ mathInt
               | None => NaN
               end.
Proof.
  intros Hs. unfold parseInt. rewrite trimStart_digits by done.
  destruct s as [|c s]; [done|].
  pose proof Hs as [Hc _]%andb_prop.
  destruct (digit_first c Hc) as (_ & _ & _ & -> & _).
  by rewrite strip_hex_prefix_digits.
Qed.

Lemma parse_digits_acc (d : Decimal.uint) (acc : positive) :
  parse_digits 10 (NilEmpty.string_of_uint d) (Some (Z.pos acc))
  = Some (Z.pos (Pos.of_uint_acc d acc)).
Proof.
  revert acc.
  induction d as [|d IH|d IH|d IH|d IH|d IH|d IH|d IH|d IH|d IH|d IH];
    intros acc; [done|..]; cbn [NilEmpty.string_of_uint parse_digits Pos.of_uint_acc];
    (change (digit_value 10 _) with (Some 0%Z)
     || change (digit_value 10 _) with (Some 1%Z)
     || change (digit_value 10 _) with (Some 2%Z)
     || change (digit_value 10 _) with (Some 3%Z)
     || change (digit_value 10 _) with (Some 4%Z)
     || change (digit_value 10 _) with (Some 5%Z)
     || change (digit_value 10 _) with (Some 6%Z)
     || change (digit_value 10 _) with (Some 7%Z)
     || change (digit_value 10 _) with (Some 8%Z)
     || change (digit_value 10 _) with (Some 9%Z));
    cbn [default]; rewrite <- IH; do 2 f_equal; unfold id; lia.
Qed.

Lemma parse_digits_uint (d : Decimal.uint) (acc : option Z) :
  acc = None ∨ acc = Some 0%Z →
  parse_digits 10 (NilEmpty.string_of_uint d) acc
  = match d with
    | Decimal.Nil => acc
    | _ => Some (Z.of_N (Pos.of_uint d))
    end.
Proof.
  revert acc.
  induction d as [|d IH|d IH|d IH|d IH|d IH|d IH|d IH|d IH|d IH|d IH];
    intros acc Hacc; [done|..]; cbn [NilEmpty.string_of_uint parse_digits].
  1: { change (digit_value 10 _) with (Some 0%Z). cbv iota beta.
       replace (10 * default 0 acc + 0)%Z with 0%Z
         by (destruct Hacc as [-> | ->]; done).
       rewrite IH by auto. by destruct d. }
  all: destruct Hacc as [-> | ->]; exact (parse_digits_acc d _).
Qed.



End ParseInt.

(** ** The dashboard: prediction results and history *)

Section DashboardResults.

Import Dashboard.

Implicit Types (st : State) (fd : FormData.t) (data : PredictionResponse.t).

(** The success branch of [handleSubmit], spelled out. *)
Lemma resume_success fd data st :
  PredictionResponse.success data = true →
  handleSubmit_resume fd (Json data) st =
  setLoading false
    (setPredictions (λ prev, slice (-5) (prev ++ [history_entry fd data]))
       (setPrediction (Some (PredictionResponse.predicted_price data)) st)).
Proof. intros Hs. unfold handleSubmit_resume. by rewrite Hs. Qed.

(** Every other outcome only writes [error] and [loading]. *)
Lemma resume_failed fd r st :
  failed r = true →
  handleSubmit_resume fd r st =
  setLoading false (setError (Some (failure_message r)) st).
Proof.
  intros Hr. unfold handleSubmit_resume.
  destruct r as [| |data]; cbn in *; try done.
  by destruct (PredictionResponse.success data).
Qed.




(** C9: when [/predict] is rejected or answers with [success] false,
    the current prediction and the history stay as they were; the
    state differs from the old one in [error] and [loading] only. *)
Theorem predict_failure_keeps_results fd (r : fetched PredictionResponse.t) st :
  failed r = true →
  prediction (handleSubmit_resume fd r st) = prediction st
  ∧ predictions (handleSubmit_resume fd r st) = predictions st
  ∧ handleSubmit_resume fd r st =
    setLoading false (setError (Some (failure_message r)) st)
  ∧ prediction (handleSubmit r st) = prediction st
  ∧ predictions (handleSubmit r st) = predictions st
  ∧ handleSubmit r st =
    setLoading false (setError (Some (failure_message r)) st).
Proof.
  intros Hr. unfold handleSubmit.
  rewrite !resume_failed by done. by split_and!.
Qed.

(** C1, as the code has it: a successful [/predict] response stores
    [predicted_price] as the current prediction, whatever its value, and
    when that value is truthy (not [0], [-0] or [NaN]) the results card
    shows it formatted by [toLocaleString]. *)
Theorem predict_success_displays_price fd data st :
  PredictionResponse.success data = true →
  let st' := handleSubmit_resume fd (Json data) st in
  prediction st' = Some (PredictionResponse.predicted_price data)
  ∧ (truthy (PredictionResponse.predicted_price data) = true →
     displayed_price (render st')
     = Some [Lit "Predicted Price: $";
             Locale (PredictionResponse.predicted_price data)]).
Proof.
  intros Hs st'. subst st'. rewrite resume_success by done.
  split; [done|]. intros Hp.
  unfold displayed_price, render. cbn. by rewrite Hp.
Qed.

(** C10, as the code has it: a successful response whose
    [predicted_price] is [0] is stored as the current prediction and the
    results card holds no results block, the guard being falsy; the
    history chart is absent exactly when the history is empty. *)
Theorem zero_price_hides_results fd (e : option string) st :
  let st' :=
    handleSubmit_resume fd (Json (PredictionResponse.mk 0%float true e)) st in
  prediction st' = Some 0%float
  ∧ element_of (results (render st')) = None
  ∧ displayed_price (render st') = None
  ∧ ∀ st0,
      renders_nothing (history (render st0))
      = Nat.eqb (length (predictions st0)) 0
      ∧ history (render st0)
        = match predictions st0 with
          | [] => FalseChild
          | _ :: _ => Element (predictions st0)
          end.
Proof.
  cbn. split_and!; try done.
  intros st0. cbn. by destruct (predictions st0).
Qed.

End DashboardResults.

(** ** The dashboard: the form and the requests it sends *)

Section DashboardForm.

Import Dashboard.

Implicit Types (st : State) (value : string).




(** C4, as the code has it: the search box and the car model [select]
    store the entered value as it is; the year and miles inputs store it
    with every character outside [0-9] removed and leave the rest of the
    form alone, so what is stored is what was entered exactly when that
    consists of digits only. *)
Theorem form_state_after_input value st :
  onSearchChange value st = setSearchTerm value st
  ∧ searchTerm (onSearchChange value st) = value
  ∧ FormData.name (formData (onNameChange value st)) = value
  ∧ formData (handleInputChange "year" value st)
    = FormData.mk (FormData.name (formData st)) (strip_non_digits value)
        (FormData.miles (formData st))
  ∧ formData (handleInputChange "miles" value st)
    = FormData.mk (FormData.name (formData st)) (FormData.year (formData st))
        (strip_non_digits value)
  ∧ all_chars is_digit (strip_non_digits value) = true
  ∧ String.eqb (strip_non_digits value) value = all_chars is_digit value.
Proof.
  split_and!; try done.
  - apply all_chars_filter.
  - destruct (all_chars is_digit value) eqn:Hv.
    + apply String.eqb_eq. by apply filter_string_id.
    + apply String.eqb_neq. intros Heq.
      apply filter_string_id in Heq. congruence.
Qed.



End DashboardForm.

(** ** The dashboard: what the form can hold *)

Section ReachableForm.

Import Dashboard.

Lemma assign_digits (key value : string) (fd : FormData.t) :
  (key = "year" ∨ key = "miles") →
  all_chars is_digit value = true →
  all_chars is_digit (FormData.year fd) = true →
  all_chars is_digit (FormData.miles fd) = true →
  all_chars is_digit (FormData.year (assign key value fd)) = true
  ∧ all_chars is_digit (FormData.miles (assign key value fd)) = true.
Proof. by intros [-> | ->]. Qed.

Lemma assign_other (key value : string) (fd : FormData.t) :
  key ≠ "year" → key ≠ "miles" →
  FormData.year (assign key value fd) = FormData.year fd
  ∧ FormData.miles (assign key value fd) = FormData.miles fd.
Proof.
  intros Hy Hm. unfold assign.
  apply String.eqb_neq in Hy, Hm. rewrite Hy, Hm.
  by destruct (String.eqb key "name").
Qed.

Lemma step_form_digits (ev : event) (st : State) :
  form_digits st → form_digits (step ev st).
Proof.
  intros [Hy Hm]. unfold form_digits.
  destruct ev as [v|v|n v| |r| |fd r]; cbn; try done.
  - unfold handleInputChange.
    destruct (String.eqb n "year") eqn:Hn1; cbn.
    { apply String.eqb_eq in Hn1.
      apply assign_digits; auto using all_chars_filter. }
    destruct (String.eqb n "miles") eqn:Hn2; cbn.
    { apply String.eqb_eq in Hn2.
      apply assign_digits; auto using all_chars_filter. }
    apply String.eqb_neq in Hn1, Hn2.
    destruct (assign_other n v (formData st) Hn1 Hn2) as [-> ->]. done.
  - by destruct r.
  - unfold handleSubmit_resume. destruct r as [| |data]; try done.
    by destruct (PredictionResponse.success data).
Qed.

(** From the first render on, whatever happens, the year and miles the
    form holds are strings of digits: only [handleInputChange] writes
    them, and it strips everything else. *)
Lemma run_form_digits (fullYear : Z) (evs : list event) :
  (0 ≤ fullYear)%Z → form_digits (run evs (initial fullYear)).
Proof.
  intros Hy.
  assert (form_digits (initial fullYear)) as Hinit.
  { split; [by apply String_of_Z_digits|done]. }
  revert Hinit. generalize (initial fullYear).
  induction evs as [|ev evs IH]; intros st Hst; [done|].
  cbn. by apply IH, step_form_digits.
Qed.

End ReachableForm.

(** ** Failures, in both views *)

Section Failures.

Implicit Types (fd : Dashboard.FormData.t) (data : Dashboard.PredictionResponse.t).

Lemma banner_of_error (st : Dashboard.State) (msg : string) :
  Dashboard.error st = Some msg →
  truthy_string msg = true →
  Dashboard.errorAlert (Dashboard.render st) = Element (mkAlert "destructive" msg)
  ∧ Dashboard.banner (Dashboard.render st) = Some msg.
Proof.
  intros Herr Hmsg. unfold Dashboard.banner, Dashboard.render. cbn.
  by rewrite Herr, and_string_truthy.
Qed.

Lemma rejected_failed (r : fetched Dashboard.PredictionResponse.t) :
  rejected r = true →
  Dashboard.failed r = true
  ∧ Dashboard.failure_message r = "Failed to connect to prediction service".
Proof. by destruct r. Qed.

Lemma cars_rejected (r : fetched Dashboard.CarsResponse.t) (st : Dashboard.State) :
  rejected r = true →
  Dashboard.fetchCars_resume r st =
  Dashboard.setIsSearching false
    (Dashboard.setAvailableCars []
       (Dashboard.setError (Some "Failed to load car models") st)).
Proof. by destruct r. Qed.

Lemma analytics_rejected
    (a : fetched (option ModelAnalytics.ModelStats))
    (b : fetched (option ModelAnalytics.ScatterData)) (st : ModelAnalytics.State) :
  rejected a || rejected b = true →
  ModelAnalytics.fetchData a b st =
  ModelAnalytics.mkState (ModelAnalytics.stats st) (ModelAnalytics.scatterData st)
    false (Some "Failed to load model analytics data").
Proof. by destruct a, b. Qed.

(** C6: when a request is rejected, by the network or by the parser,
    its view shows the error banner: on the dashboard a destructive
    alert for [/predict] and for [/cars], on the analytics page a
    destructive alert as the whole page. *)
Theorem rejection_renders_banner :
  (∀ fd (r : fetched Dashboard.PredictionResponse.t) st,
     rejected r = true →
     Dashboard.errorAlert (Dashboard.render (Dashboard.handleSubmit_resume fd r st))
     = Element (mkAlert "destructive" "Failed to connect to prediction service"))
  ∧ (∀ (r : fetched Dashboard.CarsResponse.t) st,
       rejected r = true →
       Dashboard.errorAlert (Dashboard.render (Dashboard.fetchCars_resume r st))
       = Element (mkAlert "destructive" "Failed to load car models"))
  ∧ (∀ a b st,
       rejected a || rejected b = true →
       ModelAnalytics.render (ModelAnalytics.fetchData a b st)
       = ModelAnalytics.ErrorPage
           (mkAlert "destructive" "Failed to load model analytics data")).
Proof.
  split_and!.
  - intros fd r st Hr. destruct (rejected_failed r Hr) as [Hf Hm].
    rewrite resume_failed, Hm by done.
    by apply banner_of_error.
  - intros r st Hr. rewrite cars_rejected by done. by apply banner_of_error.
  - intros a b st Hr. by rewrite analytics_rejected.
Qed.

(** C3, as the code has it: a rejected request is reported with a fixed
    text that depends on the request only, one for [/cars], one for
    [/predict] and one for the analytics page; a [/predict] response
    with [success] false is reported with its own [error] field when
    that is a non-empty string and with "Prediction failed" otherwise. *)
Theorem failure_texts :
  (∀ (r : fetched Dashboard.CarsResponse.t) st,
     rejected r = true →
     Dashboard.banner (Dashboard.render (Dashboard.fetchCars_resume r st))
     = Some "Failed to load car models")
  ∧ (∀ fd (r : fetched Dashboard.PredictionResponse.t) st,
       rejected r = true →
       Dashboard.banner (Dashboard.render (Dashboard.handleSubmit_resume fd r st))
       = Some "Failed to connect to prediction service")
  ∧ (∀ a b st,
       rejected a || rejected b = true →
       ModelAnalytics.banner (ModelAnalytics.render (ModelAnalytics.fetchData a b st))
       = Some "Failed to load model analytics data")
  ∧ (∀ fd data st,
       Dashboard.PredictionResponse.success data = false →
       Dashboard.banner
         (Dashboard.render (Dashboard.handleSubmit_resume fd (Json data) st))
       = Some match Dashboard.PredictionResponse.error data with
              | Some (String c e) => String c e
              | Some EmptyString | None => "Prediction failed"
              end).
Proof.
  split_and!.
  - intros r st Hr. rewrite cars_rejected by done. by apply banner_of_error.
  - intros fd r st Hr. destruct (rejected_failed r Hr) as [Hf Hm].
    rewrite resume_failed, Hm by done.
    by apply banner_of_error.
  - intros a b st Hr. by rewrite analytics_rejected.
  - intros fd data st Hs.
    rewrite resume_failed by (cbn; by rewrite Hs).
    destruct data as [p s [[|c e]|]]; by apply banner_of_error.
Qed.

End Failures.

(** ** The analytics page *)

Section Analytics.

Import ModelAnalytics.

(** C8: the scatter chart has one point per element of [actual], and
    point [i] pairs [actual[i]] with [predicted[i]]. *)
Theorem scatter_points_positional (d : ScatterData) :
  length (scatterPoints d) = length (actual d)
  ∧ ∀ i, i < length (actual d) →
      ∃ val,
        actual d !! i = Some val
        ∧ scatterPoints d !! i = Some (mkPoint val (predicted d !! i))
        ∧ point_actual <$> scatterPoints d !! i = actual d !! i
        ∧ point_predicted <$> scatterPoints d !! i = Some (predicted d !! i).
Proof.
  unfold scatterPoints. split; [apply length_imap|].
  intros i Hi. destruct (lookup_lt_is_Some_2 _ _ Hi) as [val Hval].
  exists val. rewrite list_lookup_imap, Hval. by cbn.
Qed.

End Analytics.

(** ** Concrete runs *)

Section ConcreteRuns.

Import Dashboard Samples.


Lemma predict_failure_keeps_results_witness :
  let r := refusal "Unknown car model" in
  let st := handleSubmit (answer 18500.5%float) (initial 2024) in
  failed r = true
  ∧ prediction (handleSubmit_resume form r st) = prediction st
  ∧ predictions (handleSubmit_resume form r st) = predictions st
  ∧ handleSubmit_resume form r st =
    setLoading false (setError (Some (failure_message r)) st)
  ∧ prediction (handleSubmit r st) = prediction st
  ∧ predictions (handleSubmit r st) = predictions st
  ∧ handleSubmit r st =
    setLoading false (setError (Some (failure_message r)) st).
Proof.
  split; [reflexivity|].
  apply (predict_failure_keeps_results form (refusal "Unknown car model")
           (handleSubmit (answer 18500.5%float) (initial 2024))).
  reflexivity.
Defined.

Lemma predict_success_displays_price_witness :
  let data := PredictionResponse.mk 18500.5%float true None in
  let st' := handleSubmit_resume form (Json data) (initial 2024) in
  PredictionResponse.success data = true
  ∧ prediction st' = Some 18500.5%float
  ∧ truthy 18500.5%float = true
  ∧ displayed_price (render st')
    = Some [Lit "Predicted Price: $"; Locale 18500.5%float].
Proof.
  pose proof (predict_success_displays_price form
                (PredictionResponse.mk 18500.5%float true None) (initial 2024)
                eq_refl) as [Hstored Hshown].
  split; [reflexivity|]. split; [exact Hstored|].
  split; [reflexivity|]. exact (Hshown eq_refl).
Defined.

(** C1 fails at [predicted_price = 0]: the response is successful and
    [0] is stored, yet the card shows no price line. *)
Lemma displayed_price_zero :
  let data := PredictionResponse.mk 0%float true None in
  let st' := handleSubmit (Json data) (initial 2024) in
  PredictionResponse.success data = true
  ∧ prediction st' = Some 0%float
  ∧ displayed_price (render st') = None
  ∧ displayed_price (render st') ≠ Some [Lit "Predicted Price: $"; Locale 0%float].
Proof. cbn. split_and!; done. Qed.

(** C10 fails in its "renders nothing": with [0] stored, the child of
    the results card is the number [0] itself, which React writes out
    as text. *)
Lemma zero_price_renders_text :
  let data := PredictionResponse.mk 0%float true None in
  let st' := handleSubmit (Json data) (initial 2024) in
  prediction st' = Some 0%float
  ∧ results (render st') = NumberChild 0%float
  ∧ renders_nothing (results (render st')) = false.
Proof. cbn. split_and!; done. Qed.

(** C3 fails for a [/predict] response with [success] false: the text
    shown is the response's own [error] field, so two such responses
    are reported with two different texts. *)
Lemma predict_error_follows_response :
  let r1 := refusal "Unknown car model" in
  let r2 := refusal "Year out of range" in
  failed r1 = true
  ∧ failed r2 = true
  ∧ banner (render (handleSubmit r1 (initial 2024))) = Some "Unknown car model"
  ∧ banner (render (handleSubmit r2 (initial 2024))) = Some "Year out of range"
  ∧ banner (render (handleSubmit r1 (initial 2024)))
    ≠ banner (render (handleSubmit r2 (initial 2024))).
Proof. cbn. split_and!; done. Qed.

(** C4 fails for the year input: entering [1.5] stores [15]. *)
Lemma year_input_not_stored_verbatim :
  FormData.year (formData (handleInputChange "year" "1.5" (initial 2024))) = "15"
  ∧ FormData.year (formData (handleInputChange "year" "1.5" (initial 2024))) ≠ "1.5".
Proof. cbn. split; done. Qed.

Lemma failure_texts_witness :
  rejected (@ParseError CarsResponse.t) = true
  ∧ banner (render (fetchCars_resume ParseError (initial 2024)))
    = Some "Failed to load car models"
  ∧ rejected (@NetworkError PredictionResponse.t) = true
  ∧ banner (render (handleSubmit_resume form NetworkError (initial 2024)))
    = Some "Failed to connect to prediction service"
  ∧ rejected (@NetworkError (option ModelAnalytics.ModelStats))
    || rejected (Json (Some scatter)) = true
  ∧ ModelAnalytics.banner
      (ModelAnalytics.render
         (ModelAnalytics.fetchData NetworkError (Json (Some scatter))
            ModelAnalytics.initial))
    = Some "Failed to load model analytics data"
  ∧ PredictionResponse.success (PredictionResponse.mk 0%float false (Some ""))
    = false
  ∧ banner
      (render
         (handleSubmit_resume form
            (Json (PredictionResponse.mk 0%float false (Some ""))) (initial 2024)))
    = Some "Prediction failed".
Proof.
  destruct failure_texts as (Hcars & Hpredict & Hanalytics & Hrefused).
  split; [reflexivity|]. split; [exact (Hcars ParseError (initial 2024) eq_refl)|].
  split; [reflexivity|].
  split; [exact (Hpredict form NetworkError (initial 2024) eq_refl)|].
  split; [reflexivity|].
  split;
    [exact (Hanalytics NetworkError (Json (Some scatter)) ModelAnalytics.initial
              eq_refl)|].
  split; [reflexivity|].
  exact (Hrefused form (PredictionResponse.mk 0%float false (Some ""))
           (initial 2024) eq_refl).
Defined.

Lemma rejection_renders_banner_witness :
  rejected (@ParseError PredictionResponse.t) = true
  ∧ errorAlert (render (handleSubmit_resume form ParseError (initial 2024)))
    = Element (mkAlert "destructive" "Failed to connect to prediction service")
  ∧ rejected (@NetworkError CarsResponse.t) = true
  ∧ errorAlert (render (fetchCars_resume NetworkError (initial 2024)))
    = Element (mkAlert "destructive" "Failed to load car models")
  ∧ rejected (Json (@None ModelAnalytics.ModelStats))
    || rejected (@ParseError (option ModelAnalytics.ScatterData)) = true
  ∧ ModelAnalytics.render
      (ModelAnalytics.fetchData (Json None) ParseError ModelAnalytics.initial)
    = ModelAnalytics.ErrorPage
        (mkAlert "destructive" "Failed to load model analytics data").
Proof.
  destruct rejection_renders_banner as (Hpredict & Hcars & Hanalytics).
  split; [reflexivity|].
  split; [exact (Hpredict form ParseError (initial 2024) eq_refl)|].
  split; [reflexivity|].
  split; [exact (Hcars NetworkError (initial 2024) eq_refl)|].
  split; [reflexivity|].
  exact (Hanalytics (Json None) ParseError ModelAnalytics.initial eq_refl).
Defined.


Lemma scatter_points_positional_witness :
  2 < length (ModelAnalytics.actual scatter)
  ∧ ModelAnalytics.scatterPoints scatter !! 2
    = Some (ModelAnalytics.mkPoint 30250%float None)
  ∧ length (ModelAnalytics.scatterPoints scatter) = 3.
Proof.
  destruct (scatter_points_positional scatter) as [Hlen Hpoint].
  assert (2 < length (ModelAnalytics.actual scatter)) as Hlt by (cbn; lia).
  destruct (Hpoint 2 Hlt) as (val & Hval & Hp & _).
  split; [exact Hlt|]. split; [|exact Hlen].
  rewrite Hp. cbn in Hval. injection Hval as <-. reflexivity.
Defined.

End ConcreteRuns.

(** ** The dashboard: the history over whole runs *)

Section HistoryRuns.

Import Dashboard.

Implicit Types (st : State) (ev : event) (evs : list event).

Lemma slice_five_length {A} (l : list A) :
  length (slice (-5) l) = Nat.min 5 (length l).
Proof. rewrite (slice_last 5), length_drop by lia. lia. Qed.

(** Truncating before appending loses nothing that truncating
    afterwards keeps. *)
Lemma slice_five_snoc {A} (l : list A) (x : A) :
  slice (-5) (slice (-5) l ++ [x]) = slice (-5) (l ++ [x]).
Proof.
  rewrite !(slice_last 5) by lia.
  rewrite <- (drop_app_le l [x] (length l - 5)) by lia.
  rewrite drop_drop, length_drop, length_app. cbn [length].
  f_equal. lia.
Qed.

Lemma step_predictions ev st :
  predictions (step ev st)
  = match new_entry ev with
    | Some e => slice (-5) (predictions st ++ [e])
    | None => predictions st
    end.
Proof.
  destruct ev as [v|v|n v| |r| |fd r]; cbn; try done.
  - unfold handleInputChange. by destruct (_ || _).
  - by destruct r.
  - unfold handleSubmit_resume. destruct r as [| |data]; try done.
    by destruct (PredictionResponse.success data).
Qed.

Lemma step_prediction ev st :
  prediction (step ev st)
  = match new_entry ev with
    | Some e => Some (PredictionData.price e)
    | None => prediction st
    end.
Proof.
  destruct ev as [v|v|n v| |r| |fd r]; cbn; try done.
  - unfold handleInputChange. by destruct (_ || _).
  - by destruct r.
  - unfold handleSubmit_resume. destruct r as [| |data]; try done.
    by destruct (PredictionResponse.success data).
Qed.

Lemma run_predictions evs st (shown : list PredictionData.t) :
  predictions st = slice (-5) shown →
  predictions (run evs st) = slice (-5) (shown ++ entries evs).
Proof.
  revert st shown. induction evs as [|ev evs IH]; intros st shown Hst.
  - cbn. by rewrite app_nil_r.
  - cbn [run foldl]. unfold entries. cbn [omap list_omap].
    fold (run evs (step ev st)). fold (entries evs).
    destruct (new_entry ev) as [e|] eqn:Hev.
    + rewrite (IH _ (shown ++ [e])%list).
      * by rewrite <- app_assoc.
      * by rewrite step_predictions, Hev, Hst, slice_five_snoc.
    + apply IH. by rewrite step_predictions, Hev.
Qed.

(** The history is the last five successful predictions of the run, in
    the order their responses came in; nothing else is ever in it. *)
Theorem history_is_last_five_successes (fullYear : Z) evs :
  predictions (run evs (initial fullYear)) = slice (-5) (entries evs)
  ∧ length (predictions (run evs (initial fullYear)))
    = Nat.min 5 (length (entries evs)).
Proof.
  assert (predictions (run evs (initial fullYear)) = slice (-5) (entries evs)) as H.
  { by apply (run_predictions evs (initial fullYear) []). }
  split; [done|]. by rewrite H, slice_five_length.
Qed.

Lemma step_price_matches_history ev st :
  price_matches_history st → price_matches_history (step ev st).
Proof.
  unfold price_matches_history. intros Hst.
  rewrite step_prediction, step_predictions.
  destruct (new_entry ev) as [e|]; [|done].
  by rewrite (slice_last_snoc 5) by lia.
Qed.

(** In every state the component reaches, the current prediction is
    the price of the last history entry, and there is no current
    prediction exactly while the history is empty. *)
Theorem prediction_is_last_history_price (fullYear : Z) evs :
  let st := run evs (initial fullYear) in
  prediction st = PredictionData.price <$> last (predictions st)
  ∧ ((prediction st = None ∧ predictions st = [])
     ∨ (∃ e, last (predictions st) = Some e
             ∧ prediction st = Some (PredictionData.price e))).
Proof.
  intros st.
  assert (price_matches_history st) as Hst.
  { subst st. generalize (initial fullYear) (eq_refl : price_matches_history (initial fullYear)).
    induction evs as [|ev evs IH]; intros st Hst; [done|].
    cbn. by apply IH, step_price_matches_history. }
  split; [done|]. rewrite Hst.
  destruct (last (predictions st)) as [e|] eqn:He.
  - right. by exists e.
  - left. split; [done|]. by apply last_None.
Qed.

End HistoryRuns.

(** ** The dashboard: which cells a handler writes *)

Section Frames.

Import Dashboard.

Implicit Types (st : State) (ev : event) (fd : FormData.t).

Lemma failure_message_truthy (r : fetched PredictionResponse.t) :
  truthy_string (failure_message r) = true.
Proof.
  destruct r as [| |data]; try done.
  cbn. by destruct (PredictionResponse.error data) as [[|c e]|].
Qed.

(** What no event does: the form is written by the form inputs only,
    the search term by the search box only, the car list and the
    searching flag by the car search only, the loading flag by
    [handleSubmit] only.  So a prediction never resets the form, and a
    new car list never changes the selected model. *)
Theorem handlers_frame ev st :
  (edits_form ev = true ∨ formData (step ev st) = formData st)
  ∧ ((∃ v, ev = SearchChange v) ∨ searchTerm (step ev st) = searchTerm st)
  ∧ ((∃ r, ev = CarsSettled r) ∨ availableCars (step ev st) = availableCars st)
  ∧ (ev = SearchTimer ∨ (∃ r, ev = CarsSettled r)
     ∨ isSearching (step ev st) = isSearching st)
  ∧ (ev = Submit ∨ (∃ fd r, ev = PredictSettled fd r)
     ∨ loading (step ev st) = loading st).
Proof.
  destruct ev as [v|v|n v| |r| |fd r]; cbn.
  - split_and!; eauto.
  - split_and!; eauto.
  - unfold handleInputChange. destruct (_ || _); split_and!; eauto.
  - split_and!; eauto.
  - destruct r; split_and!; eauto.
  - split_and!; eauto.
  - unfold handleSubmit_resume. destruct r as [| |data]; [| |destruct (PredictionResponse.success data)];
      split_and!; eauto 6.
Qed.

(** After a prediction that fails, the results card and the history
    chart are what they were: an earlier price stays on the page, now
    next to the error banner. *)
Theorem failed_prediction_keeps_card fd (r : fetched PredictionResponse.t) st :
  failed r = true →
  results (render (handleSubmit_resume fd r st)) = results (render st)
  ∧ history (render (handleSubmit_resume fd r st)) = history (render st)
  ∧ errorAlert (render (handleSubmit_resume fd r st))
    = Element (mkAlert "destructive" (failure_message r)).
Proof.
  intros Hr. rewrite resume_failed by done.
  split_and!; try done.
  by apply banner_of_error, failure_message_truthy.
Qed.

End Frames.

(** ** The dashboard: the numbers the form sends *)

Section FormNumbers.

Import Dashboard.

Implicit Types (st : State) (s value : string).

Lemma uint_of_string_digits s :
  all_chars is_digit s = true → ∃ d, NilEmpty.uint_of_string s = Some d.
Proof.
  induction s as [|c s IH]; [by eexists|].
  cbn [all_chars]. intros [Hc [d Hd]%IH]%andb_prop.
  cbn [NilEmpty.uint_of_string]. rewrite Hd.
  destruct c as [[] [] [] [] [] [] [] []]; try discriminate Hc; by eexists.
Qed.

(** On a non-empty string of digits [parseInt] is the Number value of
    its decimal reading. *)
Lemma parseInt_decimal s :
  all_chars is_digit s = true →
  s ≠ "" →
  ∃ d, NilEmpty.uint_of_string s = Some d ∧ parseInt s = ofZ (Z.of_uint d).
Proof.
  intros Hs Hne. destruct (uint_of_string_digits s Hs) as [d Hd].
  exists d. split; [done|].
  pose proof (NilEmpty.sus s d Hd) as <-.
  rewrite parseInt_digits by done.
  rewrite parse_digits_uint by auto.
  by destruct d.
Qed.

(** Whatever happened since the first render, the year and the miles
    of the form are either empty, and then sent as [null], or a string
    of digits that [parseInt] reads whole as a decimal numeral; no
    sign, fraction, exponent or hexadecimal prefix ever reaches
    [parseInt]. *)
Theorem reachable_form_numbers (fullYear : Z) (evs : list event) :
  (0 ≤ fullYear)%Z →
  let fd := formData (run evs (initial fullYear)) in
  Forall
    (λ s, all_chars is_digit s = true
          ∧ ((s = "" ∧ stringify_number (parseInt s) = JNull)
             ∨ (∃ d, NilEmpty.uint_of_string s = Some d
                     ∧ parseInt s = ofZ (Z.of_uint d))))
    [FormData.year fd; FormData.miles fd].
Proof.
  intros Hy fd. destruct (run_form_digits fullYear evs Hy) as [Hyear Hmiles].
  assert (∀ s, all_chars is_digit s = true →
               all_chars is_digit s = true
               ∧ ((s = "" ∧ stringify_number (parseInt s) = JNull)
                  ∨ (∃ d, NilEmpty.uint_of_string s = Some d
                          ∧ parseInt s = ofZ (Z.of_uint d)))) as Hcase.
  { intros s Hs. split; [done|]. destruct s as [|c s].
    - by left.
    - right. by apply parseInt_decimal. }
  constructor; [by apply Hcase|]. constructor; [by apply Hcase|]. constructor.
Qed.

Lemma percent_decode (c : ascii) :
  ascii_of_N (16 * hex_value (hex_digit (code c / 16))
              + hex_value (hex_digit (code c mod 16))) = c.
Proof. destruct c as [[] [] [] [] [] [] [] []]; reflexivity. Qed.

Lemma percent_encode_inj (c c' : ascii) :
  percent_encode c = percent_encode c' → c = c'.
Proof.
  unfold percent_encode. intros [= H1 H2].
  by rewrite <- (percent_decode c), <- (percent_decode c'), H1, H2.
Qed.

Lemma encodeURIComponent_inj s t :
  encodeURIComponent s = encodeURIComponent t → s = t.
Proof.
  revert t. induction s as [|c s IH]; intros [|c' t]; cbn [encodeURIComponent].
  - done.
  - destruct (uri_unescaped c'); discriminate.
  - destruct (uri_unescaped c); discriminate.
  - destruct (uri_unescaped c) eqn:Hc, (uri_unescaped c') eqn:Hc'; simpl.
    + intros [= -> Hst]. by rewrite (IH t).
    + intros [= -> _]. discriminate Hc.
    + intros [= <- _]. discriminate Hc'.
    + intros [= H1 H2 Hst]. rewrite (IH t Hst). f_equal.
      apply percent_encode_inj. unfold percent_encode. by rewrite H1, H2.
Qed.

(** Different search terms are requested under different URLs. *)
Theorem car_search_url_distinct (a b : string) :
  a ≠ b → fetchCars_url a ≠ fetchCars_url b.
Proof.
  intros Hab Hurl. apply Hab. unfold fetchCars_url, origin in Hurl.
  destruct a as [|ca a], b as [|cb b]; [done|discriminate Hurl|discriminate Hurl|].
  apply encodeURIComponent_inj.
  cbn [truthy_string] in Hurl. simpl in Hurl. by simplify_eq.
Qed.

End FormNumbers.

(** ** The analytics page: what is drawn *)

Section AnalyticsCharts.

Import ModelAnalytics.

(** Pairing a list with the elements of another at the same index: as
    far as the second list reaches the pairs are those of [zip_with];
    from there on the second component is [undefined]; what the second
    list holds beyond the first is not looked at. *)
Lemma imap_paired {A B C} (mk : A → option B → C) (l : list A) (k : list B) :
  imap (λ i a, mk a (k !! i)) l
  = (zip_with (λ a b, mk a (Some b)) l k
     ++ ((λ a, mk a None) <$> drop (length k) l))%list.
Proof.
  revert k. induction l as [|a l IH]; intros [|b k].
  - done.
  - done.
  - rewrite zip_with_nil_r, drop_0, app_nil_l, <- imap_const.
    apply imap_ext. intros i x _. by rewrite lookup_nil.
  - rewrite imap_cons. cbn. f_equal. apply IH.
Qed.

(** The scatter chart, arrays of any two lengths: index by index the
    pairs of [actual] and [predicted] as long as both last; an actual
    price with no prediction at its index is drawn with an undefined
    one; predictions beyond the last actual price are not drawn. *)
Theorem scatter_points_zip (d : ScatterData) :
  scatterPoints d
  = (zip_with (λ a p, mkPoint a (Some p)) (actual d) (predicted d)
     ++ ((λ a, mkPoint a None) <$> drop (length (predicted d)) (actual d)))%list.
Proof. apply (imap_paired mkPoint). Qed.

(** The page before and after [fetchData]: "loading" until both
    requests have settled and never again; then the error alert if
    either request was rejected, "no data" if both parsed and either
    body is [null], the charts of the two bodies otherwise. *)
Theorem analytics_page_after_load
    (a : fetched (option ModelStats)) (b : fetched (option ScatterData)) :
  render initial = LoadingPage
  ∧ loading (fetchData a b initial) = false
  ∧ render (fetchData a b initial)
    = match a, b with
      | Json (Some s), Json (Some d) => ContentPage (content s d)
      | Json None, Json _ | Json (Some _), Json None => NoDataPage
      | _, _ =>
          ErrorPage (mkAlert "destructive" "Failed to load model analytics data")
      end.
Proof.
  split; [done|]. split; [by destruct a, b|].
  destruct a as [| |[s|]], b as [| |[d|]]; reflexivity.
Qed.


End AnalyticsCharts.

(** ** The dashboard: the error banner over whole runs *)

Section DashboardRunsInvariants.

Import Dashboard.

Implicit Types (st : State) (ev : event) (evs : list event).

Lemma error_shown_of st (e : option string) :
  error st = e →
  match e with Some msg => truthy_string msg = true | None => True end →
  error_shown st.
Proof.
  unfold error_shown. intros Hst He. rewrite Hst. destruct e as [msg|].
  - split; [by intros ->|]. by apply banner_of_error.
  - unfold render. cbn. by rewrite Hst.
Qed.

Lemma error_shown_frame st st' :
  error st' = error st → error_shown st → error_shown st'.
Proof.
  unfold error_shown, render. cbn. by intros ->.
Qed.

Lemma step_error_shown ev st : error_shown st → error_shown (step ev st).
Proof.
  intros Hst. destruct ev as [v|v|n v| |r| |fd r]; cbn [step].
  - by apply (error_shown_frame st).
  - by apply (error_shown_frame st).
  - apply (error_shown_frame st); [|done].
    unfold handleInputChange. by destruct (_ || _).
  - by apply (error_shown_frame st).
  - destruct r; by eapply error_shown_of.
  - by apply (error_shown_of _ None).
  - destruct (failed r) eqn:Hr.
    + rewrite resume_failed by done.
      eapply error_shown_of; [done|]. apply failure_message_truthy.
    + destruct r as [| |data]; try discriminate Hr.
      apply (error_shown_frame st); [|done].
      unfold handleSubmit_resume. cbn in Hr.
      by destruct (PredictionResponse.success data).
Qed.

(** In every state the component reaches, the banner is on the page
    exactly when the error cell is set, and then with the cell's text,
    which is never empty. *)
Theorem error_banner_follows_cell (fullYear : Z) evs :
  let st := run evs (initial fullYear) in
  (error st = None ∧ errorAlert (render st) = NullChild)
  ∨ (∃ msg, error st = Some msg
            ∧ msg ≠ ""
            ∧ errorAlert (render st) = Element (mkAlert "destructive" msg)).
Proof.
  intros st.
  assert (error_shown st) as Hst.
  { subst st. generalize (initial fullYear) (eq_refl : error_shown (initial fullYear)).
    induction evs as [|ev evs IH]; intros st Hst; [done|].
    cbn. by apply IH, step_error_shown. }
  unfold error_shown in Hst. destruct (error st) as [msg|].
  - right. exists msg. by destruct Hst.
  - by left.
Qed.

End DashboardRunsInvariants.

(** ** More concrete runs *)

Section MoreConcreteRuns.

Import Dashboard Samples.

Lemma failed_prediction_keeps_card_witness :
  let r := refusal "Unknown car model" in
  let st := handleSubmit (answer 18500.5%float) (initial 2024) in
  failed r = true
  ∧ results (render (handleSubmit_resume form r st)) = results (render st)
  ∧ history (render (handleSubmit_resume form r st)) = history (render st)
  ∧ errorAlert (render (handleSubmit_resume form r st))
    = Element (mkAlert "destructive" (failure_message r)).
Proof.
  split; [reflexivity|].
  apply (failed_prediction_keeps_card form (refusal "Unknown car model")
           (handleSubmit (answer 18500.5%float) (initial 2024))).
  reflexivity.
Defined.

Lemma reachable_form_numbers_witness :
  let evs := [InputChange "year" "1.5e3"; InputChange "miles" ""] in
  let fd := formData (run evs (initial 2024)) in
  (0 ≤ 2024)%Z
  ∧ Forall
      (λ s, all_chars is_digit s = true
            ∧ ((s = "" ∧ stringify_number (parseInt s) = JNull)
               ∨ (∃ d, NilEmpty.uint_of_string s = Some d
                       ∧ parseInt s = ofZ (Z.of_uint d))))
      [FormData.year fd; FormData.miles fd].
Proof.
  split; [lia|].
  apply (reachable_form_numbers 2024
           [InputChange "year" "1.5e3"; InputChange "miles" ""]). lia.
Defined.

Lemma car_search_url_distinct_witness :
  "bmw" ≠ "audi" ∧ fetchCars_url "bmw" ≠ fetchCars_url "audi".
Proof.
  assert ("bmw" ≠ "audi") as Hne by discriminate.
  split; [exact Hne|]. exact (car_search_url_distinct "bmw" "audi" Hne).
Defined.


End MoreConcreteRuns.
